(** * Bernard OpenAI proxy: routing, aggregation and streaming relay

    A shallow embedding of [src/api/main.py] (with the addresses of
    [src/api/services/config.py]) and the properties of its handlers:
    [health_check], [list_models], [chat_completions], [embeddings],
    [transcriptions] and [speech].

    The handlers talk to the backends through one shared [httpx] client.
    Here the backends are a parameter: a function that answers each
    outbound call, possibly depending on the calls made before it.  A
    handler is a computation in a small monad that threads the log of
    outbound calls and propagates Python exceptions. *)

From Stdlib Require Import ZArith List String Ascii.
From Stdlib Require Import Strings.Byte.
From Corelib Require Import PrimFloat.
From stdpp Require Import gmap strings list fin_maps pretty.

Set Warnings "-register-all".

Open Scope string_scope.
Open Scope Z_scope.
Open Scope list_scope.

(** ** Python values *)

(** What [json.loads] produces ([await request.json()], [resp.json()]):
    [None], [bool], [int], [float], [str], [list] and [dict].  A [dict]
    keeps its insertion order, so it is a list of items; its keys are
    distinct, and a lookup takes the first item with the key. *)
Inductive value : Type :=
| VNone
| VBool (b : bool)
| VInt (z : Z)
| VFloat (f : float)
| VStr (s : string)
| VList (l : list value)
| VDict (items : list (string * value)).

(** Python exceptions, as far as the handlers tell them apart: the
    [HTTPException] they raise themselves, and every other [Exception]
    (transport errors of the client, [AttributeError], [TypeError],
    JSON decoding errors), kept with its description [str(e)]. *)
Inductive exn : Type :=
| Exc (description : string)
| HTTPException (status_code : Z) (detail : string).

Definition str (e : exn) : string :=
  match e with
  | Exc d => d
  | HTTPException s d => pretty s +:+ ": " +:+ d
  end.

Inductive outcome (A : Type) : Type :=
| Ok (a : A)
| Raise (e : exn).
Arguments Ok {A} a.
Arguments Raise {A} e.

Definition type_name (v : value) : string :=
  match v with
  | VNone => "NoneType"
  | VBool _ => "bool"
  | VInt _ => "int"
  | VFloat _ => "float"
  | VStr _ => "str"
  | VList _ => "list"
  | VDict _ => "dict"
  end.

(** [d[key]] on the items of a dict. *)
Fixpoint dict_lookup {A : Type} (key : string) (items : list (string * A)) : option A :=
  match items with
  | [] => None
  | (k, v) :: rest => if String.eqb k key then Some v else dict_lookup key rest
  end.

(** [d[key] = v]: an existing key keeps its place, a new key goes last. *)
Fixpoint dict_set {A : Type} (key : string) (v : A) (items : list (string * A)) : list (string * A) :=
  match items with
  | [] => [(key, v)]
  | (k, w) :: rest =>
      if String.eqb k key then (k, v) :: rest else (k, w) :: dict_set key v rest
  end.

(** [v.get(key, default)]; only a dict has the method. *)
Definition py_get (v : value) (key : string) (default : value) : outcome value :=
  match v with
  | VDict items =>
      Ok (match dict_lookup key items with Some x => x | None => default end)
  | _ => Raise (Exc ("'" +:+ type_name v +:+ "' object has no attribute 'get'"))
  end.

(** Truth value of [v], as [not v] and [if v] test it. *)
Definition truthy (v : value) : bool :=
  match v with
  | VNone => false
  | VBool b => b
  | VInt z => negb (z =? 0)
  | VFloat f => negb (PrimFloat.eqb f 0%float)
  | VStr s => negb (String.eqb s "")
  | VList l => match l with [] => false | _ :: _ => true end
  | VDict items => match items with [] => false | _ :: _ => true end
  end.

(** A [str] is held as its UTF-8 encoding.  A byte [10xxxxxx] continues
    the character begun before it. *)
Definition is_continuation (c : ascii) : bool :=
  match c with
  | Ascii _ _ _ _ _ _ false true => true
  | _ => false
  end.

(** The characters of a [str], one string each, as iterating it gives
    them: a byte starts a new character unless it continues the one
    before. *)
Fixpoint chars (s : string) : list value :=
  match s with
  | EmptyString => []
  | String c rest =>
      let following := chars rest in
      let continued :=
        match rest with
        | String d _ => is_continuation d
        | EmptyString => false
        end in
      match following with
      | VStr h :: tail =>
          if continued then VStr (String c h) :: tail
          else VStr (String c EmptyString) :: following
      | _ => VStr (String c EmptyString) :: following
      end
  end.

(** The elements [list.extend(v)] appends: the elements of a list, the
    characters of a string, the keys of a dict; anything else is not
    iterable. *)
Definition py_iter (v : value) : outcome (list value) :=
  match v with
  | VList l => Ok l
  | VStr s => Ok (chars s)
  | VDict items => Ok (map (fun kv => VStr (fst kv)) items)
  | _ => Raise (Exc ("'" +:+ type_name v +:+ "' object is not iterable"))
  end.

(** ** The backend client *)

(** A file part of a form, as the tuple
    [(value.filename, await value.read(), value.content_type)]. *)
Definition FileTuple : Type := option string * list byte * option string.

Inductive Payload : Type :=
| Json (body : value)
| Multipart (data : gmap string string) (files : gmap string FileTuple).

(** The outbound calls of the handlers on [http_client].  A [get] without
    [timeout] runs under the client's default, [TIMEOUT_SECONDS]. *)
Inductive Call : Type :=
| Get (url : string) (timeout : option float)
| Post (url : string) (payload : Payload) (headers : gmap string string)
| Stream (method : string) (url : string) (payload : Payload) (headers : gmap string string).

(** What the handlers read of an [httpx.Response]: [resp.status_code],
    [resp.headers] (through [dict(resp.headers)]), [resp.content] and the
    result of [resp.json()]. *)
Record HttpxResponse : Type := {
  status_code : Z;
  headers : gmap string string;
  content : list byte;
  json : outcome value
}.

(** An open upstream stream: the chunks [response.aiter_bytes()] delivers,
    and the exception that ends the iteration when the transfer fails
    midway. *)
Record UpstreamStream : Type := {
  stream_status_code : Z;
  stream_headers : gmap string string;
  chunks : list (list byte);
  failure : option exn
}.

(** The backends behind the client.  The answer to a call may depend on
    the calls made before it. *)
Record Backends : Type := {
  respond : list Call -> Call -> outcome HttpxResponse;
  open_stream : list Call -> Call -> outcome UpstreamStream
}.

(** [config.py]: the base addresses of the four backends. *)
Record Config : Type := {
  BERNARD_URL : string;
  VLLM_URL : string;
  WHISPER_URL : string;
  KOKORO_URL : string
}.

Definition default_config : Config := {|
  BERNARD_URL := "http://localhost:3000";
  VLLM_URL := "http://localhost:8001";
  WHISPER_URL := "http://localhost:8002";
  KOKORO_URL := "http://localhost:8003"
|}.

(** ** The monad of the handlers *)

(** A computation takes the log of outbound calls so far and gives its
    outcome and the extended log. *)
Definition M (A : Type) : Type := list Call -> outcome A * list Call.

Definition ret {A : Type} (a : A) : M A := fun log => (Ok a, log).

Definition raise {A : Type} (e : exn) : M A := fun log => (Raise e, log).

Definition bind {A B : Type} (c : M A) (k : A -> M B) : M B :=
  fun log =>
    match c log with
    | (Ok a, log') => k a log'
    | (Raise e, log') => (Raise e, log')
    end.

(** [try: c  except Exception as e: h e] *)
Definition try_except {A : Type} (c : M A) (h : exn -> M A) : M A :=
  fun log =>
    match c log with
    | (Ok a, log') => (Ok a, log')
    | (Raise e, log') => h e log'
    end.

Definition lift {A : Type} (o : outcome A) : M A := fun log => (o, log).

Notation "x <- c ;;; k" := (bind c (fun x => k))
  (at level 100, c at next level, right associativity).

Fixpoint for_each {A S : Type} (body : A -> S -> M S) (l : list A) (s : S) : M S :=
  match l with
  | [] => ret s
  | a :: rest => s' <- body a s ;;; for_each body rest s'
  end.

(** ** What a handler gives back *)

(** The trace of a generator: the chunks it yields, and the exception that
    ends it, if any. *)
Record GenTrace : Type := {
  yielded : list (list byte);
  raised : option exn
}.

(** A generator is run after the handler has returned, on the log of that
    moment. *)
Definition Generator : Type := list Call -> GenTrace * list Call.

Inductive Reply : Type :=
| Response (content : list byte) (status_code : Z) (headers : gmap string string)
| StreamingResponse (body : Generator) (media_type : string).

(** The dict [health_check] builds. *)
Record Health : Type := {
  status : string;
  services : list (string * string)
}.

Inductive FormValue : Type :=
| UploadFile (filename : option string) (file : list byte) (content_type : option string)
| FormField (s : string).

(** What the handlers read of the inbound request: [request.headers]
    (through [dict(request.headers)]), [await request.json()] and
    [await request.form()], a mapping with one value per field name. *)
Record Request : Type := {
  request_headers : gmap string string;
  request_json : outcome value;
  request_form : outcome (gmap string FormValue)
}.

(** ** The handlers of [main.py] *)

Section Gateway.

Variable cfg : Config.
Variable backends : Backends.

(** [await http_client.get(...)] and [await http_client.post(...)]: the
    call is logged, and the backends' answer is its outcome. *)
Definition send (c : Call) : M HttpxResponse :=
  fun log => (respond backends log c, log ++ [c]).

Definition http_get (url : string) (timeout : option float) : M HttpxResponse :=
  send (Get url timeout).

Definition http_post (url : string) (payload : Payload) (hdrs : gmap string string)
  : M HttpxResponse :=
  send (Post url payload hdrs).

(** *** [GET /health] *)

(** ["up" if resp.status_code < 500 else "error"] *)
Definition probe_status (resp : HttpxResponse) : string :=
  if status_code resp <? 500 then "up" else "error".

(** [health["services"][name] = s] *)
Definition set_service (name s : string) (health : Health) : Health :=
  {| status := status health; services := dict_set name s (services health) |}.

(** [health["status"] = s] *)
Definition set_status (s : string) (health : Health) : Health :=
  {| status := s; services := services health |}.

(** The body of the loop of [health_check], for one backend. *)
Definition check_backend (backend : string * string) (health : Health) : M Health :=
  let '(name, url) := backend in
  try_except
    (let check_url :=
       if String.eqb name "bernard" then url +:+ "/api/status" else url +:+ "/health" in
     s <- try_except
            (resp <- http_get check_url (Some 2%float) ;;; ret (probe_status resp))
            (fun _ => resp <- http_get url (Some 2%float) ;;; ret (probe_status resp)) ;;;
     ret (set_service name s health))
    (fun e =>
       ret (set_status "degraded" (set_service name ("down (" +:+ str e +:+ ")") health))).

Definition registered_backends : list (string * string) :=
  [("bernard", BERNARD_URL cfg);
   ("vllm", VLLM_URL cfg);
   ("whisper", WHISPER_URL cfg);
   ("kokoro", KOKORO_URL cfg)].

Definition health_check : M Health :=
  for_each check_backend registered_backends {| status := "ok"; services := [] |}.

(** *** [GET /v1/models] *)

Definition whisper_1 : value :=
  VDict [("id", VStr "whisper-1"); ("object", VStr "model");
         ("created", VInt 1677649963); ("owned_by", VStr "openai")].

Definition kokoro_v1_0 : value :=
  VDict [("id", VStr "kokoro-v1.0"); ("object", VStr "model");
         ("created", VInt 1677649963); ("owned_by", VStr "kokoro")].

(** One of the two [try] blocks of [list_models] (lines 66-71 for
    Bernard, 74-79 for vLLM): on status 200, [models] is extended by
    [resp.json().get("data", [])]; an exception is logged and leaves
    [models] as it was. *)
Definition extend_from (url : string) (models : list value) : M (list value) :=
  try_except
    (resp <- http_get url None ;;;
     if status_code resp =? 200 then
       body <- lift (json resp) ;;;
       data <- lift (py_get body "data" (VList [])) ;;;
       entries <- lift (py_iter data) ;;;
       ret (models ++ entries)
     else ret models)
    (fun _ => ret models).

Definition list_models : M value :=
  models <- ret [] ;;;
  models <- extend_from (BERNARD_URL cfg +:+ "/api/v1/models") models ;;;
  models <- extend_from (VLLM_URL cfg +:+ "/v1/models") models ;;;
  models <- ret (models ++ [whisper_1]) ;;;
  models <- ret (models ++ [kokoro_v1_0]) ;;;
  ret (VDict [("object", VStr "list"); ("data", VList models)]).

(** *** Proxying *)

(** [Response(content=resp.content, status_code=resp.status_code,
    headers=dict(resp.headers))].  [resp.content] is the body as the client
    gives it, after it has undone the [content-encoding] of the answer.
    The construction is taken to succeed; Starlette raises, inside the
    [try] of the handler, for a header that cannot be encoded as
    latin-1. *)
Definition relay (resp : HttpxResponse) : Reply :=
  Response (content resp) (status_code resp) (headers resp).

(** The loop [async for chunk in response.aiter_bytes(): yield chunk]. *)
Fixpoint yield_each (cs : list (list byte)) (fin : option exn) : GenTrace :=
  match cs with
  | [] => {| yielded := []; raised := fin |}
  | chunk :: rest =>
      let t := yield_each rest fin in
      {| yielded := chunk :: yielded t; raised := raised t |}
  end.

(** The generator of [chat_completions]: it opens the upstream stream
    when it is first iterated; an exception of the client ends it. *)
Definition stream_generator (target_url : string) (body : value)
    (hdrs : gmap string string) : Generator :=
  fun log =>
    let c := Stream "POST" target_url (Json body) hdrs in
    (match open_stream backends log c with
     | Ok response => yield_each (chunks response) (failure response)
     | Raise e => {| yielded := []; raised := Some e |}
     end, log ++ [c]).

Definition chat_completions (request : Request) : M Reply :=
  body <- lift (request_json request) ;;;
  _ <- lift (py_get body "model" VNone) ;;;
  stream_requested <- lift (py_get body "stream" (VBool false)) ;;;
  let target_url := BERNARD_URL cfg +:+ "/api/v1/chat/completions" in
  if negb (truthy stream_requested) then
    try_except
      (resp <- http_post target_url (Json body) (request_headers request) ;;;
       ret (relay resp))
      (fun e => raise (HTTPException 500 (str e)))
  else
    ret (StreamingResponse
           (stream_generator target_url body (request_headers request))
           "text/event-stream").

Definition embeddings (request : Request) : M Reply :=
  body <- lift (request_json request) ;;;
  _ <- lift (py_get body "model" VNone) ;;;
  let target_url := VLLM_URL cfg +:+ "/v1/embeddings" in
  try_except
    (resp <- http_post target_url (Json body) (request_headers request) ;;;
     ret (relay resp))
    (fun e => raise (HTTPException 500 (str e))).

(** The loop of [transcriptions] over [form_data.items()]: a value with
    a [filename] goes to [files], any other to [data]. *)
Definition sort_part (key : string) (v : FormValue)
    (acc : gmap string FileTuple * gmap string string)
  : gmap string FileTuple * gmap string string :=
  match v with
  | UploadFile filename file content_type =>
      (<[key := (filename, file, content_type)]> (fst acc), snd acc)
  | FormField s => (fst acc, <[key := s]> (snd acc))
  end.

Definition split_form (form_data : gmap string FormValue)
  : gmap string FileTuple * gmap string string :=
  map_fold sort_part (∅, ∅) form_data.

Definition transcriptions (request : Request) : M Reply :=
  form_data <- lift (request_form request) ;;;
  let '(files, data) := split_form form_data in
  let target_url := WHISPER_URL cfg +:+ "/v1/audio/transcriptions" in
  try_except
    (resp <- http_post target_url (Multipart data files) (request_headers request) ;;;
     ret (relay resp))
    (fun e => raise (HTTPException 500 (str e))).

Definition speech (request : Request) : M Reply :=
  body <- lift (request_json request) ;;;
  _ <- lift (py_get body "voice" VNone) ;;;
  let target_url := KOKORO_URL cfg +:+ "/v1/audio/speech" in
  try_except
    (resp <- http_post target_url (Json body) (request_headers request) ;;;
     ret (relay resp))
    (fun e => raise (HTTPException 500 (str e))).

End Gateway.

(** ** Concrete backends and requests *)

Definition bytes (s : string) : list byte := list_byte_of_string s.

Definition call_url (c : Call) : string :=
  match c with
  | Get url _ => url
  | Post url _ _ => url
  | Stream _ url _ _ => url
  end.

Definition refused {A : Type} : outcome A := Raise (Exc "All connection attempts failed").

(** Backends that answer by address alone; an address that is not listed
    refuses the connection. *)
Definition routes (table : list (string * outcome HttpxResponse))
    (streams : list (string * outcome UpstreamStream)) : Backends :=
  {| respond := fun _ c =>
       match dict_lookup (call_url c) table with Some o => o | None => refused end;
     open_stream := fun _ c =>
       match dict_lookup (call_url c) streams with Some o => o | None => refused end |}.

(** A response with a body that is not JSON. *)
Definition plain (code : Z) (body : string) : outcome HttpxResponse :=
  Ok {| status_code := code; headers := ∅; content := bytes body;
        json := Raise (Exc "Expecting value: line 1 column 1 (char 0)") |}.

(** A response whose body decodes to [v]. *)
Definition decoded (code : Z) (v : value) : outcome HttpxResponse :=
  Ok {| status_code := code; headers := {["content-type" := "application/json"]};
        content := []; json := Ok v |}.

Definition catalog (entries : list value) : value :=
  VDict [("object", VStr "list"); ("data", VList entries)].

Definition model (id : string) : value :=
  VDict [("id", VStr id); ("object", VStr "model")].

(** ** Notions used in the statements *)

(** The catalog call to a backend delivered the entries [l]: status 200
    and a body that decodes to a dict whose ["data"] is the list [l]. *)
Inductive received : outcome HttpxResponse -> list value -> Prop :=
| received_catalog resp items l :
    status_code resp = 200 ->
    json resp = Ok (VDict items) ->
    dict_lookup "data" items = Some (VList l) ->
    received (Ok resp) l.

(** The catalog call to a backend failed: a transport error, a status
    other than 200, or a malformed body (one that does not decode, does
    not decode to a dict, or whose ["data"] cannot be iterated). *)
Inductive failed : outcome HttpxResponse -> Prop :=
| failed_transport e :
    failed (Raise e)
| failed_status resp :
    status_code resp <> 200 ->
    failed (Ok resp)
| failed_undecodable resp e :
    json resp = Raise e ->
    failed (Ok resp)
| failed_not_a_dict resp v e :
    json resp = Ok v ->
    py_get v "data" (VList []) = Raise e ->
    failed (Ok resp)
| failed_not_iterable resp v data e :
    json resp = Ok v ->
    py_get v "data" (VList []) = Ok data ->
    py_iter data = Raise e ->
    failed (Ok resp).

(** The entries one [try] block of [list_models] adds for the answer [o]
    to its catalog call. *)
Definition contribution (o : outcome HttpxResponse) : list value :=
  match o with
  | Ok resp =>
      if status_code resp =? 200 then
        match json resp with
        | Ok body =>
            match py_get body "data" (VList []) with
            | Ok data => match py_iter data with Ok l => l | Raise _ => [] end
            | Raise _ => []
            end
        | Raise _ => []
        end
      else []
  | Raise _ => []
  end.

(** The value of a scalar field, and the tuple of a file part. *)
Definition field_of (v : FormValue) : option string :=
  match v with
  | FormField s => Some s
  | UploadFile _ _ _ => None
  end.

Definition file_of (v : FormValue) : option FileTuple :=
  match v with
  | UploadFile filename file content_type => Some (filename, file, content_type)
  | FormField _ => None
  end.

(** [body.get("stream", False)] on the items of the body. *)
Definition stream_flag (items : list (string * value)) : value :=
  match dict_lookup "stream" items with
  | Some v => v
  | None => VBool false
  end.

(** The buffered mode of [chat_completions]: one [post], and the reply is
    made from its outcome. *)
Definition buffered (cfg : Config) (backends : Backends) (request : Request)
    (body : value) (log : list Call) : outcome Reply * list Call :=
  let c := Post (BERNARD_URL cfg +:+ "/api/v1/chat/completions") (Json body)
             (request_headers request) in
  (match respond backends log c with
   | Ok resp => Ok (Response (content resp) (status_code resp) (headers resp))
   | Raise e => Raise (HTTPException 500 (str e))
   end, log ++ [c]).

(** The streaming mode: no call yet, and an event-stream reply around the
    generator. *)
Definition streaming (cfg : Config) (backends : Backends) (request : Request)
    (body : value) (log : list Call) : outcome Reply * list Call :=
  (Ok (StreamingResponse
         (stream_generator backends (BERNARD_URL cfg +:+ "/api/v1/chat/completions")
            body (request_headers request))
         "text/event-stream"), log).

(** ** Scenarios *)

Definition quote : string := String "034"%char EmptyString.

(** The body [{"error":"overloaded"}]. *)
Definition overloaded_body : string :=
  "{" +:+ quote +:+ "error" +:+ quote +:+ ":" +:+ quote +:+ "overloaded" +:+ quote +:+ "}".

Definition overloaded : HttpxResponse :=
  {| status_code := 503;
     headers := {["content-type" := "application/json"]};
     content := bytes overloaded_body;
     json := Ok (VDict [("error", VStr "overloaded")]) |}.

(** The Whisper wrapper has lost its binary: its [/health] (line 35 of
    [whisper_server.py]) answers 503 with a status of ["error"].  The
    other backends answer their probe with 200. *)
Definition whisper_binary_missing : Backends :=
  routes [("http://localhost:3000/api/status", plain 200 "ok");
          ("http://localhost:8001/health", plain 200 "ok");
          ("http://localhost:8002/health",
           decoded 503 (VDict [("status", VStr "error");
                               ("message", VStr "Whisper binary not found at /srv/api/whisper.cpp/build/bin/main")]));
          ("http://localhost:8003/health", plain 200 "ok")] [].

(** Kokoro has no [/health] (it answers 404) and its root answers 500;
    the other backends answer their probe with 200. *)
Definition kokoro_without_health : Backends :=
  routes [("http://localhost:3000/api/status", plain 200 "ok");
          ("http://localhost:8001/health", plain 200 "ok");
          ("http://localhost:8002/health", plain 200 "ok");
          ("http://localhost:8003/health", plain 404 "Not Found");
          ("http://localhost:8003", plain 500 "Internal Server Error")] [].

(** Bernard lists [A, B] and vLLM lists [C]. *)
Definition both_catalogs : Backends :=
  routes [("http://localhost:3000/api/v1/models", decoded 200 (catalog [model "A"; model "B"]));
          ("http://localhost:8001/v1/models", decoded 200 (catalog [model "C"]))] [].

(** Bernard is unreachable and vLLM lists [C]. *)
Definition chat_unreachable : Backends :=
  routes [("http://localhost:8001/v1/models", decoded 200 (catalog [model "C"]))] [].

(** Bernard answers 502 with a catalog, vLLM answers 200 with a body that
    is not JSON. *)
Definition both_catalogs_broken : Backends :=
  routes [("http://localhost:3000/api/v1/models", decoded 502 (catalog [model "A"]));
          ("http://localhost:8001/v1/models", plain 200 "<html>")] [].

(** Bernard answers chat completions with 503. *)
Definition chat_overloaded : Backends :=
  routes [("http://localhost:3000/api/v1/chat/completions", Ok overloaded)] [].

(** No backend is reachable. *)
Definition all_down : Backends := routes [] [].


(** A chat request whose body has ["stream"] set to [flag], or has no
    such key. *)
Definition chat_body (flag : option value) : list (string * value) :=
  ("model", VStr "bernard") ::
  match flag with
  | Some v => [("stream", v)]
  | None => []
  end.

Definition chat_request (flag : option value) : Request :=
  {| request_headers := {["content-type" := "application/json"]};
     request_json := Ok (VDict (chat_body flag));
     request_form := Ok ∅ |}.

(** A transcription form with an audio file, a model and a field the
    backend does not know, and no [language]. *)
Definition audio_form : gmap string FormValue :=
  <["file" := UploadFile (Some "speech.wav") (bytes "RIFF") (Some "audio/wav")]>
    (<["model" := FormField "whisper-1"]>
       (<["x-trace" := FormField "42"]> ∅)).


(** ** Further notions *)

(** A record of the form [down (...)], as [health_check] writes it for a
    backend it could not reach. *)
Fixpoint starts_with (p s : string) : bool :=
  match p with
  | EmptyString => true
  | String a p' =>
      match s with
      | EmptyString => false
      | String b s' => Ascii.eqb a b && starts_with p' s'
      end
  end.

Definition is_down (s : string) : bool := starts_with "down (" s.

(** A probe of [health_check]: a [get] with the 2s timeout. *)
Definition is_probe (c : Call) : Prop :=
  exists url, c = Get url (Some 2%float).

(** A body that [.get] can be called on. *)
Definition is_dict (o : outcome value) : Prop :=
  exists items, o = Ok (VDict items).

(** A request whose body is a JSON list, and whose form cannot be read. *)
Definition list_request : Request :=
  {| request_headers := {["content-type" := "application/json"]};
     request_json := Ok (VList [VStr "hello"]);
     request_form := Raise (Exc "Missing boundary in multipart.") |}.

(** A speech request that asks for a stream. *)
Definition speech_request : Request :=
  {| request_headers := {["content-type" := "application/json"]};
     request_json :=
       Ok (VDict [("input", VStr "hello"); ("voice", VStr "af_heart");
                  ("stream", VBool true)]);
     request_form := Ok ∅ |}.

(** Bernard closes the stream with an error after two chunks. *)
Definition chat_stream_breaks : Backends :=
  routes []
    [("http://localhost:3000/api/v1/chat/completions",
      Ok {| stream_status_code := 200;
            stream_headers := {["content-type" := "text/event-stream"]};
            chunks := [bytes "data: a"; bytes "data: b"];
            failure := Some (Exc "peer closed connection") |})].

(** The letter e with an acute accent, two bytes in UTF-8. *)
Definition e_acute : string := String "195"%char (String "169"%char EmptyString).

(** Bernard answers its catalog call with [{"data": ...}], the string
    being g followed by e with an acute accent, and vLLM with
    [{"object": "list"}]. *)
Definition odd_catalogs : Backends :=
  routes [("http://localhost:3000/api/v1/models",
           decoded 200 (VDict [("data", VStr ("g" +:+ e_acute))]));
          ("http://localhost:8001/v1/models", decoded 200 (VDict [("object", VStr "list")]))]
    [].

(** ** [whisper_server.py] *)

(** The paths that exist on the server, with the content of the files. *)
Abbreviation Files := (gmap string (list byte)).

(** [Path.exists()] and [os.path.exists]. *)
Definition path_exists (path : string) (fs : Files) : bool :=
  match fs !! path with
  | Some _ => true
  | None => false
  end.

(** The two paths fixed when the module is loaded. *)
Record WhisperPaths : Type := {
  WHISPER_BINARY : string;
  WHISPER_MODEL : string
}.

(** What [subprocess.run(cmd, capture_output=True, text=True)] gives. *)
Record CompletedProcess : Type := {
  returncode : Z;
  stdout : string;
  stderr : string
}.

(** How a request to the server can fail: the [HTTPException] the handler
    raises, and the exceptions it lets through. *)
Inductive fault : Type :=
| HTTPError (status_code : Z) (detail : string)
| TypeError
| AttributeError
| KeyError
| OSError (description : string).

Inductive result (A : Type) : Type :=
| Done (a : A)
| Failed (f : fault).
Arguments Done {A} a.
Arguments Failed {A} f.

(** The state the handler works on: the files, and the commands run so
    far. *)
Record World : Type := {
  files : Files;
  commands : list (list string)
}.

(** [GET /health] of the server: the status code and the body. *)
Definition health (paths : WhisperPaths) (fs : Files) : Z * value :=
  if negb (path_exists (WHISPER_BINARY paths) fs) then
    (503, VDict [("status", VStr "error");
                 ("message", VStr ("Whisper binary not found at " +:+ WHISPER_BINARY paths))])
  else if negb (path_exists (WHISPER_MODEL paths) fs) then
    (503, VDict [("status", VStr "error");
                 ("message", VStr ("Whisper model not found at " +:+ WHISPER_MODEL paths))])
  else
    (200, VDict [("status", VStr "up"); ("model", VStr (WHISPER_MODEL paths))]).

Definition is_str (key : string) (v : value) : bool :=
  match v with
  | VStr s => String.eqb s key
  | _ => false
  end.

Definition is_substring (key s : string) : bool :=
  match String.index 0 key s with
  | Some _ => true
  | None => false
  end.

(** [key in v], for a string [key]: a key of a dict, an element of a
    list, a part of a string; anything else is no container. *)
Definition py_in (key : string) (v : value) : result bool :=
  match v with
  | VDict items =>
      Done (match dict_lookup key items with Some _ => true | None => false end)
  | VList l => Done (existsb (is_str key) l)
  | VStr s => Done (is_substring key s)
  | _ => Failed TypeError
  end.

(** [v[key]], for a string [key] that is [in v]: only a dict can be
    indexed by a string. *)
Definition py_subscript (v : value) (key : string) : result value :=
  match v with
  | VDict items =>
      match dict_lookup key items with
      | Some x => Done x
      | None => Failed KeyError
      end
  | _ => Failed TypeError
  end.

(** [[item.get("text", "") for item in v]] *)
Fixpoint texts_of (l : list value) : result (list value) :=
  match l with
  | [] => Done []
  | item :: rest =>
      match item with
      | VDict items =>
          match texts_of rest with
          | Done ts =>
              Done (match dict_lookup "text" items with
                    | Some x => x
                    | None => VStr ""
                    end :: ts)
          | Failed f => Failed f
          end
      | _ => Failed AttributeError
      end
  end.

(** [" ".join(l)]: every element must be a string. *)
Fixpoint join_spaces (l : list value) : result string :=
  match l with
  | [] => Done ""
  | VStr s :: rest =>
      match rest with
      | [] => Done s
      | _ :: _ =>
          match join_spaces rest with
          | Done t => Done (s +:+ " " +:+ t)
          | Failed f => Failed f
          end
      end
  | _ :: _ => Failed TypeError
  end.

Section Transcribe.

Variable paths : WhisperPaths.

(** The name [tempfile.NamedTemporaryFile] picks, given the files. *)
Variable temp_name : Files -> string.

(** [subprocess.run]: what the command gives and what it leaves of the
    files; it can fail to start. *)
Variable subprocess_run : list string -> Files -> result CompletedProcess * Files.

(** [json.loads]; [None] stands for [JSONDecodeError]. *)
Variable json_loads : string -> option value.

(** [str.strip()] *)
Variable strip : string -> string.

(** The command line (lines 61-70). *)
Definition command (name : string) (language : option string) : list string :=
  [WHISPER_BINARY paths; "-m"; WHISPER_MODEL paths; "-f"; name; "-oj"; "--no-prints"]
  ++ match language with
     | Some l => if negb (String.eqb l "") then ["-l"; l] else []
     | None => []
     end.

(** The inner [try] block (lines 83-100): the text taken from the output
    of the process. *)
Definition read_output (out : string) : result value :=
  match json_loads out with
  | None => Done (VDict [("text", VStr (strip out))])
  | Some output_json =>
      match py_in "transcription" output_json with
      | Failed f => Failed f
      | Done true =>
          match py_subscript output_json "transcription" with
          | Failed f => Failed f
          | Done segments =>
              match py_iter segments with
              | Raise _ => Failed TypeError
              | Ok items =>
                  match texts_of items with
                  | Failed f => Failed f
                  | Done ts =>
                      match join_spaces ts with
                      | Failed f => Failed f
                      | Done text => Done (VDict [("text", VStr text)])
                      end
                  end
              end
          end
      | Done false =>
          match py_in "result" output_json with
          | Failed f => Failed f
          | Done true =>
              match py_get output_json "text" (VStr "") with
              | Ok text => Done (VDict [("text", text)])
              | Raise _ => Failed AttributeError
              end
          | Done false => Done (VDict [("text", VStr (strip out))])
          end
      end
  end.

(** The outer [try] block once the audio is written (lines 59-100). *)
Definition run_whisper (name : string) (language : option string) (w : World)
  : result value * World :=
  let cmd := command name language in
  let '(proc, fs) := subprocess_run cmd (files w) in
  let w' := {| files := fs; commands := commands w ++ [cmd] |} in
  match proc with
  | Failed f => (Failed f, w')
  | Done process =>
      if negb (returncode process =? 0) then
        (Failed (HTTPError 500 ("Transcription failed: " +:+ stderr process)), w')
      else (read_output (stdout process), w')
  end.

(** [POST /v1/audio/transcriptions] of the server, for the uploaded
    [file] and the [language] field; the other fields are not read. *)
Definition transcribe (file : list byte) (language : option string) (w : World)
  : result value * World :=
  if negb (path_exists (WHISPER_BINARY paths) (files w)) then
    (Failed (HTTPError 500 "Whisper binary not found"), w)
  else
    let name := temp_name (files w) in
    let w1 := {| files := <[name := file]> (files w); commands := commands w |} in
    let '(r, w2) := run_whisper name language w1 in
    (r, if path_exists name (files w2)
        then {| files := delete name (files w2); commands := commands w2 |}
        else w2).

(** The process started for the request ran to its end and gave
    [process]. *)
Definition whisper_gave (file : list byte) (language : option string) (w : World)
    (process : CompletedProcess) : Prop :=
  path_exists (WHISPER_BINARY paths) (files w) = true
  /\ fst (subprocess_run (command (temp_name (files w)) language)
            (<[temp_name (files w) := file]> (files w))) = Done process.

End Transcribe.

(** A value that [in] can be asked of. *)
Definition is_container (v : value) : bool :=
  match v with
  | VDict _ | VList _ | VStr _ => true
  | _ => false
  end.

(** A segment of the output with its text: the string under ["text"], or
    the empty string when the segment has no such key. *)
Definition segment_says (segment : value) (text : string) : Prop :=
  exists items,
    segment = VDict items
    /\ (dict_lookup "text" items = Some (VStr text)
        \/ (dict_lookup "text" items = None /\ text = "")).

(** The language the server is given for a forwarded form: the field of
    that name, if any. *)
Definition language_field (data : gmap string string) : option string :=
  data !! "language".

(** *** A server to run *)

Definition is_space (c : ascii) : bool :=
  match c with
  | " "%char | "009"%char | "010"%char | "011"%char | "012"%char | "013"%char
  | "028"%char | "029"%char | "030"%char | "031"%char => true
  | _ => false
  end.

Fixpoint drop_spaces (l : list ascii) : list ascii :=
  match l with
  | c :: rest => if is_space c then drop_spaces rest else l
  | [] => []
  end.

(** [strip] on text without characters beyond ASCII. *)
Definition ascii_strip (s : string) : string :=
  string_of_list_ascii
    (rev (drop_spaces (rev (drop_spaces (list_ascii_of_string s))))).

Definition server_paths : WhisperPaths :=
  {| WHISPER_BINARY := "/srv/api/whisper.cpp/build/bin/main";
     WHISPER_MODEL := "/srv/models/whisper/ggml-small.bin" |}.

Definition server_files : Files :=
  <["/srv/api/whisper.cpp/build/bin/main" := bytes "ELF"]>
    (<["/srv/models/whisper/ggml-small.bin" := bytes "ggml"]> ∅).

Definition server_world : World := {| files := server_files; commands := [] |}.

(** The output [{"transcription": [{"text": "hello"}, {}, {"text": "world"}]}]. *)
Definition segments_output : string :=
  "{" +:+ quote +:+ "transcription" +:+ quote +:+ ": [{" +:+ quote +:+ "text" +:+ quote
  +:+ ": " +:+ quote +:+ "hello" +:+ quote +:+ "}, {}, {" +:+ quote +:+ "text" +:+ quote
  +:+ ": " +:+ quote +:+ "world" +:+ quote +:+ "}]}".

(** A decoder that knows the outputs used here. *)
Definition toy_loads (s : string) : option value :=
  if String.eqb s segments_output then
    Some (VDict [("transcription",
                  VList [VDict [("text", VStr "hello")]; VDict [];
                         VDict [("text", VStr "world")]])])
  else if String.eqb s "42" then Some (VInt 42)
  else if String.eqb s "{}" then Some (VDict [])
  else None.

(** A process that prints [out], exits with [code] and leaves the files
    as they are. *)
Definition prints (code : Z) (out err : string)
  : list string -> Files -> result CompletedProcess * Files :=
  fun _ fs => (Done {| returncode := code; stdout := out; stderr := err |}, fs).

Definition fixed_name : Files -> string := fun _ => "/tmp/tmpk3v9.wav".

(** The text of an entry, and the texts of a list of entries put
    together. *)
Definition text_of (v : value) : string :=
  match v with
  | VStr t => t
  | _ => ""
  end.

Fixpoint texts_together (l : list value) : string :=
  match l with
  | [] => ""
  | v :: rest => text_of v +:+ texts_together rest
  end.







(** The body [{"id":1}], 8 bytes. *)
Definition compressed_text : string :=
  "{" +:+ quote +:+ "id" +:+ quote +:+ ":1}".

(** Bernard answers chat completions with the body [{"id":1}] compressed
    with gzip, 28 bytes on the wire.  The client presents the answer with
    the headers as sent and the body decoded. *)
Definition chat_compressed : Backends :=
  routes [("http://localhost:3000/api/v1/chat/completions",
           Ok {| status_code := 200;
                 headers :=
                   <["content-encoding" := "gzip"]>
                     (<["content-length" := "28"]>
                        {["content-type" := "application/json"]});
                 content := bytes compressed_text;
                 json := Ok (VDict [("id", VInt 1)]) |})] [].

(** ** Properties *)

Ltac run := unfold bind, try_except, lift, ret, raise, http_get, http_post, send; simpl.

Lemma app_one_more {A : Type} (l : list A) (a b : A) : (l ++ [a]) ++ [b] = l ++ [a; b].
Proof. now rewrite <- app_assoc. Qed.


(** *** [GET /v1/models] *)

Section Models.

Variable cfg : Config.
Variable backends : Backends.

(** A [try] block of [list_models] never raises: it makes its one call
    and appends the contribution of the answer. *)
Lemma extend_from_contribution url models log :
  extend_from backends url models log =
    (Ok (models ++ contribution (respond backends log (Get url None))),
     log ++ [Get url None]).
Proof.
  unfold extend_from, contribution. run.
  destruct (respond backends log (Get url None)) as [resp|e]; simpl.
  - destruct (status_code resp =? 200); simpl.
    + destruct (json resp) as [body|e]; simpl.
      * destruct (py_get body "data" (VList [])) as [data|e]; simpl.
        -- destruct (py_iter data) as [l|e]; simpl; now rewrite ?app_nil_r.
        -- now rewrite app_nil_r.
      * now rewrite app_nil_r.
    + now rewrite app_nil_r.
  - now rewrite app_nil_r.
Qed.

Lemma list_models_contributions log :
  let c1 := Get (BERNARD_URL cfg +:+ "/api/v1/models") None in
  let c2 := Get (VLLM_URL cfg +:+ "/v1/models") None in
  list_models cfg backends log =
    (Ok (VDict [("object", VStr "list");
                ("data", VList (contribution (respond backends log c1)
                                ++ contribution (respond backends (log ++ [c1]) c2)
                                ++ [whisper_1; kokoro_v1_0]))]),
     log ++ [c1; c2]).
Proof.
  intros c1 c2. unfold list_models.
  unfold bind at 1. unfold ret at 1.
  unfold bind at 1. rewrite extend_from_contribution.
  unfold bind at 1. rewrite extend_from_contribution.
  run. fold c1 c2. rewrite app_one_more.
  now rewrite <- !app_assoc.
Qed.

Lemma contribution_received o l : received o l -> contribution o = l.
Proof.
  intros [resp items l' Hs Hj Hd]. unfold contribution.
  rewrite Hs, Hj. simpl. now rewrite Hd.
Qed.

Lemma contribution_failed o : failed o -> contribution o = [].
Proof.
  intros [e|resp Hs|resp e Hj|resp v e Hj Hg|resp v data e Hj Hg Hi];
    unfold contribution; try reflexivity.
  - apply Z.eqb_neq in Hs. now rewrite Hs.
  - rewrite Hj. now destruct (status_code resp =? 200).
  - rewrite Hj, Hg. now destruct (status_code resp =? 200).
  - rewrite Hj, Hg, Hi. now destruct (status_code resp =? 200).
Qed.

End Models.

(** C2. [GET /v1/models] returns the chat backend's entries in the order
    received, then the embeddings backend's entries in the order received,
    then [whisper-1] and [kokoro-v1.0]; when the chat backend is
    unreachable, the list is the embeddings backend's entries followed by
    the two synthetic entries. *)
Theorem list_models_order (cfg : Config) (backends : Backends) (log : list Call)
    (chat emb : list value) :
  let c1 := Get (BERNARD_URL cfg +:+ "/api/v1/models") None in
  let c2 := Get (VLLM_URL cfg +:+ "/v1/models") None in
  received (respond backends (log ++ [c1]) c2) emb ->
  (received (respond backends log c1) chat ->
   list_models cfg backends log =
     (Ok (VDict [("object", VStr "list");
                 ("data", VList (chat ++ emb ++ [whisper_1; kokoro_v1_0]))]),
      log ++ [c1; c2]))
  /\
  ((exists e, respond backends log c1 = Raise e) ->
   list_models cfg backends log =
     (Ok (VDict [("object", VStr "list");
                 ("data", VList (emb ++ [whisper_1; kokoro_v1_0]))]),
      log ++ [c1; c2])).
Proof.
  intros c1 c2 Hemb.
  pose proof (list_models_contributions cfg backends log) as Heq.
  cbv zeta in Heq. fold c1 c2 in Heq.
  rewrite (contribution_received _ _ Hemb) in Heq.
  split.
  - intros Hchat. now rewrite (contribution_received _ _ Hchat) in Heq.
  - intros [e He]. now rewrite He in Heq.
Qed.

Lemma list_models_order_witness :
  fst (list_models default_config both_catalogs []) =
    Ok (catalog [model "A"; model "B"; model "C"; whisper_1; kokoro_v1_0])
  /\
  fst (list_models default_config chat_unreachable []) =
    Ok (catalog [model "C"; whisper_1; kokoro_v1_0]).
Proof.
  split.
  - assert (Hemb : received (decoded 200 (catalog [model "C"])) [model "C"])
      by (econstructor; reflexivity).
    assert (Hchat : received (decoded 200 (catalog [model "A"; model "B"]))
                      [model "A"; model "B"])
      by (econstructor; reflexivity).
    destruct (list_models_order default_config both_catalogs []
                [model "A"; model "B"] [model "C"] Hemb) as [Hboth _].
    rewrite (Hboth Hchat). reflexivity.
  - assert (Hemb : received (decoded 200 (catalog [model "C"])) [model "C"])
      by (econstructor; reflexivity).
    destruct (list_models_order default_config chat_unreachable [] [] [model "C"] Hemb)
      as [_ Hdown].
    rewrite Hdown; [reflexivity | eexists; reflexivity].
Defined.

(** C8. [GET /v1/models] never fails.  Whatever the two backends answer,
    it returns a list that ends with the two synthetic entries; a backend
    whose call fails (transport error, status other than 200, malformed
    body) contributes no entry, and the entries of the other backend are
    those it delivered. *)
Theorem list_models_never_fails (cfg : Config) (backends : Backends) (log : list Call) :
  let c1 := Get (BERNARD_URL cfg +:+ "/api/v1/models") None in
  let c2 := Get (VLLM_URL cfg +:+ "/v1/models") None in
  let o1 := respond backends log c1 in
  let o2 := respond backends (log ++ [c1]) c2 in
  exists chat emb : list value,
    list_models cfg backends log =
      (Ok (VDict [("object", VStr "list");
                  ("data", VList ((chat ++ emb) ++ [whisper_1; kokoro_v1_0]))]),
       log ++ [c1; c2])
    /\ (failed o1 -> chat = [])
    /\ (failed o2 -> emb = [])
    /\ (forall l, received o1 l -> chat = l)
    /\ (forall l, received o2 l -> emb = l).
Proof.
  intros c1 c2 o1 o2.
  exists (contribution o1), (contribution o2).
  split; [| repeat split].
  - rewrite <- app_assoc. apply list_models_contributions.
  - apply contribution_failed.
  - apply contribution_failed.
  - apply contribution_received.
  - apply contribution_received.
Qed.

Lemma list_models_never_fails_witness :
  fst (list_models default_config both_catalogs_broken []) =
    Ok (catalog [whisper_1; kokoro_v1_0])
  /\
  fst (list_models default_config all_down []) =
    Ok (catalog [whisper_1; kokoro_v1_0]).
Proof.
  split.
  - destruct (list_models_never_fails default_config both_catalogs_broken [])
      as (chat & emb & Heq & Hchat & Hemb & _).
    rewrite Heq, Hchat, Hemb; [reflexivity | |].
    + eapply failed_undecodable. reflexivity.
    + apply failed_status. vm_compute. discriminate.
  - destruct (list_models_never_fails default_config all_down [])
      as (chat & emb & Heq & Hchat & Hemb & _).
    rewrite Heq, Hchat, Hemb; [reflexivity | |]; apply failed_transport.
Defined.

(** *** Proxying *)

Section Proxy.

Variable cfg : Config.
Variable backends : Backends.

(** The [try] block shared by the four handlers: one [post]; a response
    is relayed, an exception becomes an [HTTPException] with status 500. *)
Lemma post_and_relay url payload hdrs log :
  try_except
    (resp <- http_post backends url payload hdrs ;;; ret (relay resp))
    (fun e => raise (HTTPException 500 (str e))) log
  = (match respond backends log (Post url payload hdrs) with
     | Ok resp => Ok (relay resp)
     | Raise e => Raise (HTTPException 500 (str e))
     end, log ++ [Post url payload hdrs]).
Proof. run. now destruct (respond backends log (Post url payload hdrs)). Qed.

Lemma chat_completions_modes request items log :
  request_json request = Ok (VDict items) ->
  chat_completions cfg backends request log =
    if truthy (stream_flag items)
    then streaming cfg backends request (VDict items) log
    else buffered cfg backends request (VDict items) log.
Proof.
  intros Hbody. unfold chat_completions.
  unfold bind at 1. unfold lift at 1. rewrite Hbody.
  unfold bind at 1. unfold lift at 1. simpl py_get. cbv iota beta.
  unfold bind at 1. unfold lift at 1. simpl py_get. cbv iota beta.
  fold (stream_flag items).
  destruct (truthy (stream_flag items)); cbn [negb]; cbv iota zeta.
  - reflexivity.
  - rewrite post_and_relay. reflexivity.
Qed.

Lemma transcriptions_call request form_data log :
  request_form request = Ok form_data ->
  transcriptions cfg backends request log =
    let c := Post (WHISPER_URL cfg +:+ "/v1/audio/transcriptions")
               (Multipart (snd (split_form form_data)) (fst (split_form form_data)))
               (request_headers request) in
    (match respond backends log c with
     | Ok resp => Ok (relay resp)
     | Raise e => Raise (HTTPException 500 (str e))
     end, log ++ [c]).
Proof.
  intros Hform. unfold transcriptions.
  unfold bind at 1. unfold lift at 1. rewrite Hform.
  destruct (split_form form_data) as [files data].
  cbv zeta. rewrite post_and_relay. reflexivity.
Qed.

End Proxy.

(** C3, on the code.  Bernard answers a buffered chat completion with a
    gzip body of 28 bytes.  The client hands the handler the 8 bytes it
    decodes, and the reply carries these 8 bytes under the backend's own
    [content-encoding: gzip] and [content-length: 28]: the status and the
    headers are the backend's, the body is not the bytes it produced. *)
Theorem decoded_body_under_gzip_headers :
  chat_completions default_config chat_compressed (chat_request None) [] =
    (Ok (Response (bytes compressed_text) 200
           (<["content-encoding" := "gzip"]>
              (<["content-length" := "28"]> {["content-type" := "application/json"]}))),
     [Post "http://localhost:3000/api/v1/chat/completions"
        (Json (VDict (chat_body None))) {["content-type" := "application/json"]}])
  /\ length (bytes compressed_text) = 8%nat.
Proof. split; reflexivity. Qed.

(** C7, on the code.  A chat completion with ["stream": true] against an
    unreachable backend: the reply is the event-stream response, returned
    before any call; the one call of its generator raises the transport
    exception before any chunk; the reply is not the 500 error that the
    buffered branch makes of the same exception. *)
Lemma streaming_failure_is_not_500 :
  let request := chat_request (Some (VBool true)) in
  let run := chat_completions default_config all_down request [] in
  exists g : Generator,
    run = (Ok (StreamingResponse g "text/event-stream"), [])
    /\ g [] =
         ({| yielded := []; raised := Some (Exc "All connection attempts failed") |},
          [Stream "POST" "http://localhost:3000/api/v1/chat/completions"
             (Json (VDict (chat_body (Some (VBool true)))))
             (request_headers request)])
    /\ fst run <> Raise (HTTPException 500 "All connection attempts failed").
Proof.
  eexists. split; [reflexivity | split; [reflexivity | discriminate]].
Qed.

(** *** Buffered and streaming chat completions *)





(** *** The streaming relay *)




(** *** The transcription form *)

Lemma split_form_lookup (form_data : gmap string FormValue) (key : string) :
  snd (split_form form_data) !! key = form_data !! key ≫= field_of
  /\ fst (split_form form_data) !! key = form_data !! key ≫= file_of.
Proof.
  unfold split_form. revert key.
  apply (map_fold_weak_ind
           (fun acc m => forall key,
                snd acc !! key = m !! key ≫= field_of
                /\ fst acc !! key = m !! key ≫= file_of)).
  - intros key. rewrite !lookup_empty. now split.
  - intros i x m acc Hfresh IH key.
    destruct (IH key) as [IHd IHf].
    destruct (decide (i = key)) as [->|Hne].
    + rewrite Hfresh in IHd, IHf. simpl in IHd, IHf.
      rewrite lookup_insert_eq.
      destruct x; simpl; rewrite ?lookup_insert_eq; now split.
    + rewrite (lookup_insert_ne m) by assumption.
      destruct x; simpl; rewrite ?lookup_insert_ne by assumption; now split.
Qed.







(** *** [GET /health] *)

(** The three ways the check of one backend can go: the primary probe is
    answered, and the answer is final; it raises and the probe of the root
    address is answered; both raise. *)
Lemma check_backend_cases (backends : Backends) (name url : string)
    (health : Health) (log : list Call) :
  let check_url :=
    if String.eqb name "bernard" then url +:+ "/api/status" else url +:+ "/health" in
  let c1 := Get check_url (Some 2%float) in
  let c2 := Get url (Some 2%float) in
  check_backend backends (name, url) health log =
    match respond backends log c1 with
    | Ok resp => (Ok (set_service name (probe_status resp) health), log ++ [c1])
    | Raise _ =>
        match respond backends (log ++ [c1]) c2 with
        | Ok resp => (Ok (set_service name (probe_status resp) health), log ++ [c1; c2])
        | Raise e =>
            (Ok (set_status "degraded"
                   (set_service name ("down (" +:+ str e +:+ ")") health)),
             log ++ [c1; c2])
        end
    end.
Proof.
  intros check_url c1 c2. unfold check_backend. run. fold check_url. fold c1 c2.
  destruct (respond backends log c1) as [resp|e1]; simpl; [reflexivity |].
  rewrite app_one_more.
  now destruct (respond backends (log ++ [c1]) c2) as [resp|e2].
Qed.

(** C1, on the code.  One backend answers its probe with 503: its record
    is ["error"], and the aggregate status stays ["ok"]. *)
Theorem error_record_leaves_status_ok :
  health_check default_config whisper_binary_missing [] =
    (Ok {| status := "ok";
           services := [("bernard", "up"); ("vllm", "up");
                        ("whisper", "error"); ("kokoro", "up")] |},
     [Get "http://localhost:3000/api/status" (Some 2%float);
      Get "http://localhost:8001/health" (Some 2%float);
      Get "http://localhost:8002/health" (Some 2%float);
      Get "http://localhost:8003/health" (Some 2%float)]).
Proof. reflexivity. Qed.

(** C6, on the code.  A backend without [/health] answers the primary
    probe with 404 and would answer 500 at its root: the 404 is final,
    the root is never probed, and the record is ["up"]. *)
Theorem answered_probe_has_no_fallback :
  health_check default_config kokoro_without_health [] =
    (Ok {| status := "ok";
           services := [("bernard", "up"); ("vllm", "up");
                        ("whisper", "up"); ("kokoro", "up")] |},
     [Get "http://localhost:3000/api/status" (Some 2%float);
      Get "http://localhost:8001/health" (Some 2%float);
      Get "http://localhost:8002/health" (Some 2%float);
      Get "http://localhost:8003/health" (Some 2%float)])
  /\
  respond kokoro_without_health [] (Get "http://localhost:8003" (Some 2%float)) =
    plain 500 "Internal Server Error".
Proof. split; reflexivity. Qed.

(** ** Further properties of [main.py] *)

(** *** The dict of [health_check] *)

Lemma dict_lookup_set {A : Type} (key : string) (v : A) (items : list (string * A)) :
  dict_lookup key (dict_set key v items) = Some v.
Proof.
  induction items as [|[k w] rest IH]; simpl.
  - now rewrite String.eqb_refl.
  - destruct (String.eqb k key) eqn:Hk; simpl; now rewrite Hk.
Qed.

(** One check, whatever the backend does: it never raises, makes one or
    two probes, writes one record, and turns the aggregate to
    ["degraded"] exactly when the record is a [down (...)] one. *)
Lemma check_backend_step (backends : Backends) (name url : string)
    (health : Health) (log : list Call) :
  exists (s : string) (calls : list Call),
    check_backend backends (name, url) health log =
      (Ok {| status := if is_down s then "degraded" else status health;
             services := dict_set name s (services health) |},
       log ++ calls)
    /\ (length calls = 1%nat \/ length calls = 2%nat)
    /\ Forall is_probe calls.
Proof.
  pose proof (check_backend_cases backends name url health log) as Hc.
  cbv zeta in Hc. rewrite Hc. clear Hc.
  set (c1 := Get _ _). set (c2 := Get url _).
  assert (Hp1 : is_probe c1) by (eexists; reflexivity).
  assert (Hp2 : is_probe c2) by (eexists; reflexivity).
  destruct (respond backends log c1) as [resp|e1].
  - exists (probe_status resp), [c1]. split; [| split; [now left | now constructor]].
    unfold probe_status, set_service. now destruct (status_code resp <? 500).
  - destruct (respond backends (log ++ [c1]) c2) as [resp|e2].
    + exists (probe_status resp), [c1; c2].
      split; [| split; [now right | now repeat constructor]].
      unfold probe_status, set_service. now destruct (status_code resp <? 500).
    + exists ("down (" +:+ str e2 +:+ ")"), [c1; c2].
      split; [reflexivity | split; [now right | now repeat constructor]].
Qed.

(** The four checks of [health_check], one after the other. *)
Lemma health_check_steps (cfg : Config) (backends : Backends) (log : list Call) :
  exists (s1 s2 s3 s4 : string) (k1 k2 k3 k4 : list Call),
    health_check cfg backends log =
      (Ok {| status :=
               if is_down s4 then "degraded"
               else if is_down s3 then "degraded"
               else if is_down s2 then "degraded"
               else if is_down s1 then "degraded" else "ok";
             services :=
               [("bernard", s1); ("vllm", s2); ("whisper", s3); ("kokoro", s4)] |},
       log ++ (k1 ++ k2 ++ k3 ++ k4))
    /\ Forall (fun k => (length k = 1%nat \/ length k = 2%nat) /\ Forall is_probe k)
         [k1; k2; k3; k4].
Proof.
  unfold health_check, registered_backends. cbn [for_each].
  unfold bind at 1.
  destruct (check_backend_step backends "bernard" (BERNARD_URL cfg)
              {| status := "ok"; services := [] |} log)
    as (s1 & k1 & E1 & L1 & P1).
  rewrite E1. cbv beta iota. unfold bind at 1.
  match goal with |- context [check_backend _ ("vllm", _) ?h ?l] =>
    destruct (check_backend_step backends "vllm" (VLLM_URL cfg) h l)
      as (s2 & k2 & E2 & L2 & P2) end.
  rewrite E2. cbv beta iota. unfold bind at 1.
  match goal with |- context [check_backend _ ("whisper", _) ?h ?l] =>
    destruct (check_backend_step backends "whisper" (WHISPER_URL cfg) h l)
      as (s3 & k3 & E3 & L3 & P3) end.
  rewrite E3. cbv beta iota. unfold bind at 1.
  match goal with |- context [check_backend _ ("kokoro", _) ?h ?l] =>
    destruct (check_backend_step backends "kokoro" (KOKORO_URL cfg) h l)
      as (s4 & k4 & E4 & L4 & P4) end.
  rewrite E4. cbv beta iota.
  exists s1, s2, s3, s4, k1, k2, k3, k4. split.
  - unfold ret. simpl. now rewrite <- !app_assoc.
  - repeat (constructor; [split; assumption |]). constructor.
Qed.

(** X1. [health_check] never raises, whatever the backends do: it returns
    a dict with one record for each of the four backends, in the order
    bernard, vllm, whisper, kokoro, after four to eight probes, all of
    them [get]s with the 2s timeout. *)
Theorem health_check_reports_every_backend (cfg : Config) (backends : Backends)
    (log : list Call) :
  exists (h : Health) (calls : list Call),
    health_check cfg backends log = (Ok h, log ++ calls)
    /\ map fst (services h) = ["bernard"; "vllm"; "whisper"; "kokoro"]
    /\ (4 <= length calls <= 8)%nat
    /\ Forall is_probe calls.
Proof.
  destruct (health_check_steps cfg backends log)
    as (s1 & s2 & s3 & s4 & k1 & k2 & k3 & k4 & Heq & Hk).
  inversion Hk as [|? ? [L1 P1] Hk1]; subst.
  inversion Hk1 as [|? ? [L2 P2] Hk2]; subst.
  inversion Hk2 as [|? ? [L3 P3] Hk3]; subst.
  inversion Hk3 as [|? ? [L4 P4] _]; subst.
  eexists. exists (k1 ++ k2 ++ k3 ++ k4). split; [exact Heq |].
  split; [reflexivity |]. split.
  - rewrite !length_app. lia.
  - rewrite !Forall_app. now repeat split.
Qed.

(** X2. The aggregate status of [health_check] is ["degraded"] exactly
    when one of the four records is a [down (...)] record, and ["ok"]
    otherwise. *)
Theorem aggregate_status_follows_down_records (cfg : Config) (backends : Backends)
    (log : list Call) :
  exists (h : Health) (log' : list Call),
    health_check cfg backends log = (Ok h, log')
    /\ status h =
         if existsb (fun record => is_down (snd record)) (services h)
         then "degraded" else "ok".
Proof.
  destruct (health_check_steps cfg backends log)
    as (s1 & s2 & s3 & s4 & k1 & k2 & k3 & k4 & Heq & _).
  eexists. eexists. split; [exact Heq |].
  simpl. now destruct (is_down s1), (is_down s2), (is_down s3), (is_down s4).
Qed.

(** X3. The record of a backend is a [down (...)] record exactly when its
    primary probe and the probe of its root address both raised; the
    reason in it is then the description of the second exception, and
    the first one is dropped. *)
Theorem down_record_needs_two_failures (backends : Backends) (name url : string)
    (health : Health) (log : list Call) :
  let check_url :=
    if String.eqb name "bernard" then url +:+ "/api/status" else url +:+ "/health" in
  let c1 := Get check_url (Some 2%float) in
  let c2 := Get url (Some 2%float) in
  exists (h' : Health) (log' : list Call) (s : string),
    check_backend backends (name, url) health log = (Ok h', log')
    /\ dict_lookup name (services h') = Some s
    /\ (is_down s = true <->
        (exists e1, respond backends log c1 = Raise e1)
        /\ (exists e2, respond backends (log ++ [c1]) c2 = Raise e2))
    /\ (forall e1 e2,
          respond backends log c1 = Raise e1 ->
          respond backends (log ++ [c1]) c2 = Raise e2 ->
          s = "down (" +:+ str e2 +:+ ")").
Proof.
  intros check_url c1 c2.
  pose proof (check_backend_cases backends name url health log) as Hc.
  cbv zeta in Hc. fold check_url in Hc. fold c1 c2 in Hc. rewrite Hc. clear Hc.
  assert (Hup : forall resp, is_down (probe_status resp) = false).
  { intros resp. unfold probe_status. now destruct (status_code resp <? 500). }
  destruct (respond backends log c1) as [resp|e1].
  - eexists. eexists. exists (probe_status resp).
    split; [reflexivity |]. split; [apply dict_lookup_set |]. split.
    + rewrite Hup. split; [discriminate |]. now intros [[e He] _].
    + discriminate.
  - destruct (respond backends (log ++ [c1]) c2) as [resp|e2].
    + eexists. eexists. exists (probe_status resp).
      split; [reflexivity |]. split; [apply dict_lookup_set |]. split.
      * rewrite Hup. split; [discriminate |]. now intros [_ [e He]].
      * discriminate.
    + eexists. eexists. exists ("down (" +:+ str e2 +:+ ")").
      split; [reflexivity |]. split; [apply dict_lookup_set |]. split.
      * split; [eauto | reflexivity].
      * now intros ? ? _ [= <-].
Qed.

(** *** The proxying handlers *)

Lemma not_a_dict_has_no_get (v : value) :
  ~ is_dict (Ok v) ->
  forall key default, exists e, py_get v key default = Raise e.
Proof.
  intros Hv key default. destruct v; simpl; eauto.
  exfalso. apply Hv. eexists. reflexivity.
Qed.

(** X4. A request with a malformed body never reaches a backend.  When
    [request.json()] raises or gives anything but an object,
    [chat_completions], [embeddings] and [speech] raise without any call;
    when [request.form()] raises, so does [transcriptions]. *)
Theorem malformed_request_makes_no_call (cfg : Config) (backends : Backends)
    (request : Request) (log : list Call) :
  (~ is_dict (request_json request) ->
   (exists e, chat_completions cfg backends request log = (Raise e, log))
   /\ (exists e, embeddings cfg backends request log = (Raise e, log))
   /\ (exists e, speech cfg backends request log = (Raise e, log)))
  /\
  (forall e, request_form request = Raise e ->
   transcriptions cfg backends request log = (Raise e, log)).
Proof.
  split.
  - intros Hbody.
    unfold chat_completions, embeddings, speech. run.
    destruct (request_json request) as [v|e]; [| repeat split; eauto].
    repeat split.
    + destruct (not_a_dict_has_no_get v Hbody "model" VNone) as [e ->]. eauto.
    + destruct (not_a_dict_has_no_get v Hbody "model" VNone) as [e ->]. eauto.
    + destruct (not_a_dict_has_no_get v Hbody "voice" VNone) as [e ->]. eauto.
  - intros e Hform. unfold transcriptions. run. now rewrite Hform.
Qed.

Lemma malformed_request_makes_no_call_witness :
  chat_completions default_config chat_overloaded list_request [] =
    (Raise (Exc "'list' object has no attribute 'get'"), [])
  /\
  transcriptions default_config chat_overloaded list_request [] =
    (Raise (Exc "Missing boundary in multipart."), []).
Proof.
  destruct (malformed_request_makes_no_call default_config chat_overloaded
              list_request []) as [Hjson Hform].
  split.
  - destruct Hjson as [[e He] _].
    + intros [items Hitems]. discriminate.
    + rewrite He. revert He. vm_compute. now intros [= <-].
  - apply Hform. reflexivity.
Defined.




(** X6. A streaming chat completion contacts the backend only when its
    body is iterated: the handler returns the event-stream reply with the
    log untouched; the generator then makes exactly one call, a streamed
    [POST] of the parsed body and the inbound headers to Bernard's
    chat-completions path; when that call raises, nothing is yielded and
    the exception ends the generator. *)
Theorem streaming_reply_defers_the_call (cfg : Config) (backends : Backends)
    (request : Request) (log log' : list Call) (g : Generator) (media_type : string) :
  chat_completions cfg backends request log = (Ok (StreamingResponse g media_type), log') ->
  log' = log
  /\ media_type = "text/event-stream"
  /\ exists body,
       request_json request = Ok body
       /\ forall log2,
            let c := Stream "POST" (BERNARD_URL cfg +:+ "/api/v1/chat/completions")
                       (Json body) (request_headers request) in
            snd (g log2) = log2 ++ [c]
            /\ (forall e, open_stream backends log2 c = Raise e ->
                fst (g log2) = {| yielded := []; raised := Some e |}).
Proof.
  intros Hrun.
  destruct (request_json request) as [body|e] eqn:Hbody.
  - destruct body;
      try (unfold chat_completions in Hrun; revert Hrun; run; rewrite Hbody; simpl;
           discriminate).
    rewrite (chat_completions_modes cfg backends request items log Hbody) in Hrun.
    destruct (truthy (stream_flag items)).
    + unfold streaming in Hrun. injection Hrun as <- <- <-.
      repeat split. exists (VDict items). split; [reflexivity |].
      intros log2 c. split; [reflexivity |].
      intros e He. unfold stream_generator. simpl. fold c. now rewrite He.
    + unfold buffered in Hrun.
      destruct (respond backends log _); discriminate.
  - unfold chat_completions in Hrun. revert Hrun. run. rewrite Hbody. discriminate.
Qed.

Lemma streaming_reply_defers_the_call_witness :
  fst (stream_generator all_down "http://localhost:3000/api/v1/chat/completions"
         (VDict (chat_body (Some (VBool true))))
         {["content-type" := "application/json"]} []) =
    {| yielded := []; raised := Some (Exc "All connection attempts failed") |}.
Proof.
  destruct (streaming_reply_defers_the_call default_config all_down
              (chat_request (Some (VBool true))) [] []
              (stream_generator all_down "http://localhost:3000/api/v1/chat/completions"
                 (VDict (chat_body (Some (VBool true))))
                 {["content-type" := "application/json"]})
              "text/event-stream" eq_refl)
    as (_ & _ & body & Hbody & Hgen).
  injection Hbody as <-.
  destruct (Hgen []) as [_ Hraise].
  apply Hraise. reflexivity.
Defined.

(** X7. Only [chat_completions] streams.  [embeddings], [transcriptions]
    and [speech] never give a streaming reply, whatever the request asks
    for: what they return is a complete response. *)
Theorem only_chat_completions_streams (cfg : Config) (backends : Backends)
    (request : Request) (log log' : list Call) (r : Reply) :
  (embeddings cfg backends request log = (Ok r, log')
   \/ transcriptions cfg backends request log = (Ok r, log')
   \/ speech cfg backends request log = (Ok r, log')) ->
  exists (c : Call) (resp : HttpxResponse),
    log' = log ++ [c]
    /\ respond backends log c = Ok resp
    /\ r = Response (content resp) (status_code resp) (headers resp).
Proof.
  assert (Hpost : forall url payload hdrs,
             try_except
               (resp <- http_post backends url payload hdrs ;;; ret (relay resp))
               (fun e => raise (HTTPException 500 (str e))) log = (Ok r, log') ->
             exists c resp,
               log' = log ++ [c] /\ respond backends log c = Ok resp
               /\ r = Response (content resp) (status_code resp) (headers resp)).
  { intros url payload hdrs. rewrite post_and_relay.
    destruct (respond backends log (Post url payload hdrs)) as [resp|e] eqn:Hresp;
      [| discriminate].
    intros [= <- <-]. eauto. }
  assert (Hjson : forall key url,
             (body <- lift (request_json request) ;;;
              _ <- lift (py_get body key VNone) ;;;
              try_except
                (resp <- http_post backends url (Json body) (request_headers request) ;;;
                 ret (relay resp))
                (fun e => raise (HTTPException 500 (str e)))) log = (Ok r, log') ->
             exists c resp,
               log' = log ++ [c] /\ respond backends log c = Ok resp
               /\ r = Response (content resp) (status_code resp) (headers resp)).
  { intros key url. unfold bind at 1. unfold lift at 1.
    destruct (request_json request) as [body|e]; [| discriminate].
    unfold bind at 1. unfold lift at 1.
    destruct (py_get body key VNone) as [m|e]; [| discriminate].
    apply Hpost. }
  intros [Hrun|[Hrun|Hrun]].
  - exact (Hjson _ _ Hrun).
  - destruct (request_form request) as [form_data|e] eqn:Hform.
    + rewrite (transcriptions_call cfg backends request form_data log Hform) in Hrun.
      cbv zeta in Hrun.
      destruct (respond backends log _) as [resp|e] eqn:Hresp; [| discriminate].
      injection Hrun as <- <-. eauto.
    + unfold transcriptions in Hrun. revert Hrun. run. rewrite Hform. discriminate.
  - exact (Hjson _ _ Hrun).
Qed.

Lemma only_chat_completions_streams_witness :
  exists resp : HttpxResponse,
    fst (speech default_config
           (routes [("http://localhost:8003/v1/audio/speech", plain 200 "RIFF")] [])
           speech_request []) =
      Ok (Response (content resp) (status_code resp) (headers resp)).
Proof.
  destruct (only_chat_completions_streams default_config
              (routes [("http://localhost:8003/v1/audio/speech", plain 200 "RIFF")] [])
              speech_request []
              [Post "http://localhost:8003/v1/audio/speech"
                 (Json (VDict [("input", VStr "hello"); ("voice", VStr "af_heart");
                               ("stream", VBool true)]))
                 {["content-type" := "application/json"]}]
              (Response (bytes "RIFF") 200 ∅))
    as (c & resp & Hlog & Hresp & Hr).
  - right. right. reflexivity.
  - exists resp. rewrite <- Hr. reflexivity.
Defined.



(** *** The split of the transcription form *)

Lemma split_form_sizes (form_data : gmap string FormValue) :
  (size (snd (split_form form_data)) + size (fst (split_form form_data)))%nat
  = size form_data.
Proof.
  pose proof (map_fold_weak_ind
    (fun acc m =>
       (size (snd acc) + size (fst acc))%nat = size m
       /\ forall key, m !! key = None ->
            snd acc !! key = None /\ fst acc !! key = None)
    sort_part (∅, ∅)) as Hind.
  apply Hind.
  - split; [reflexivity |]. intros key _. cbn [fst snd]. now rewrite !lookup_empty.
  - intros i x m acc Hfresh [Hsize Hnone].
    destruct (Hnone i Hfresh) as [Hd Hf]. split.
    + destruct x; cbn [sort_part fst snd];
        rewrite !map_size_insert_None by assumption; lia.
    + intros key Hkey.
      apply lookup_insert_None in Hkey as [Hkey Hne].
      destruct (Hnone key Hkey) as [Hd' Hf'].
      destruct x; simpl; rewrite ?lookup_insert_ne by assumption; now split.
Qed.

(** X9. [transcriptions] sends each item of the form once: the fields in
    [data] and the file parts in [files] are together as many as the items
    of the form, and no name is in both. *)
Theorem every_form_item_is_sent_once (form_data : gmap string FormValue) :
  (size (snd (split_form form_data)) + size (fst (split_form form_data)))%nat
  = size form_data
  /\ forall key,
       snd (split_form form_data) !! key = None
       \/ fst (split_form form_data) !! key = None.
Proof.
  split; [apply split_form_sizes |].
  intros key. destruct (split_form_lookup form_data key) as [-> ->].
  destruct (form_data !! key) as [[fn f ct|s]|]; simpl; auto.
Qed.

(** *** Catalogs of an unexpected shape *)

(** The characters of a string, put together again, are the string. *)
Lemma chars_together (s : string) : texts_together (chars s) = s.
Proof.
  induction s as [|c rest IH]; [reflexivity |].
  rewrite <- IH at 2. cbn [chars]. cbv zeta. clear IH.
  destruct (chars rest) as [|v tail]; [reflexivity |].
  destruct v; try reflexivity.
  now destruct (match rest with String d _ => is_continuation d | EmptyString => false end).
Qed.


(** X10. [list_models] takes whatever [list.extend] accepts.  From a
    catalog answered with 200 whose body is an object: without ["data"],
    nothing is added; with a string under ["data"], each of its
    characters becomes an entry of the list, in the order of the
    string. *)
Theorem catalog_data_is_taken_as_it_iterates (cfg : Config) (backends : Backends)
    (log : list Call) (resp : HttpxResponse) (items : list (string * value)) :
  let c1 := Get (BERNARD_URL cfg +:+ "/api/v1/models") None in
  let c2 := Get (VLLM_URL cfg +:+ "/v1/models") None in
  respond backends log c1 = Ok resp ->
  status_code resp = 200 ->
  json resp = Ok (VDict items) ->
  exists emb : list value,
    (dict_lookup "data" items = None ->
     list_models cfg backends log =
       (Ok (VDict [("object", VStr "list");
                   ("data", VList (emb ++ [whisper_1; kokoro_v1_0]))]),
        log ++ [c1; c2]))
    /\
    (forall s, dict_lookup "data" items = Some (VStr s) ->
     list_models cfg backends log =
       (Ok (VDict [("object", VStr "list");
                   ("data", VList (chars s ++ emb ++ [whisper_1; kokoro_v1_0]))]),
        log ++ [c1; c2])
     /\ texts_together (chars s) = s).
Proof.
  intros c1 c2 Hresp Hstatus Hjson.
  pose proof (list_models_contributions cfg backends log) as Heq.
  cbv zeta in Heq. fold c1 c2 in Heq.
  set (emb := contribution (respond backends (log ++ [c1]) c2)) in *.
  exists emb. rewrite Heq, Hresp. unfold contribution, py_get.
  rewrite Hstatus, Hjson. cbn [Z.eqb Pos.eqb].
  split.
  - intros Hdata. rewrite Hdata. reflexivity.
  - intros s Hdata. rewrite Hdata. split; [reflexivity |].
    apply chars_together.
Qed.

Lemma catalog_data_is_taken_as_it_iterates_witness :
  fst (list_models default_config odd_catalogs []) =
    Ok (catalog [VStr "g"; VStr e_acute; whisper_1; kokoro_v1_0]).
Proof.
  destruct (catalog_data_is_taken_as_it_iterates default_config odd_catalogs []
              {| status_code := 200;
                 headers := {["content-type" := "application/json"]};
                 content := [];
                 json := Ok (VDict [("data", VStr ("g" +:+ e_acute))]) |}
              [("data", VStr ("g" +:+ e_acute))] eq_refl eq_refl eq_refl)
    as (emb & _ & Hstr).
  destruct (Hstr ("g" +:+ e_acute) eq_refl) as [Heq _].
  pose proof Heq as Hemb. vm_compute in Hemb. injection Hemb as Hemb.
  change ([] ++ [whisper_1; kokoro_v1_0] = emb ++ [whisper_1; kokoro_v1_0]) in Hemb.
  apply app_inv_tail in Hemb. subst emb.
  rewrite Heq. reflexivity.
Defined.

(** ** Properties of [whisper_server.py] *)

Section TranscribeFacts.

Variable paths : WhisperPaths.
Variable temp_name : Files -> string.
Variable subprocess_run : list string -> Files -> result CompletedProcess * Files.
Variable json_loads : string -> option value.
Variable strip : string -> string.

Let transcribe' := transcribe paths temp_name subprocess_run json_loads strip.
Let run_whisper' := run_whisper paths subprocess_run json_loads strip.

(** [run_whisper] runs one command and keeps the files as the process
    left them. *)
Lemma run_whisper_world name language w :
  snd (run_whisper' name language w) =
    {| files := snd (subprocess_run (command paths name language) (files w));
       commands := commands w ++ [command paths name language] |}.
Proof.
  unfold run_whisper', run_whisper.
  destruct (subprocess_run (command paths name language) (files w)) as [proc fs].
  destruct proc as [process|f]; [| reflexivity].
  now destruct (negb (returncode process =? 0)).
Qed.

Lemma run_whisper_result name language w process :
  fst (subprocess_run (command paths name language) (files w)) = Done process ->
  fst (run_whisper' name language w) =
    if negb (returncode process =? 0)
    then Failed (HTTPError 500 ("Transcription failed: " +:+ stderr process))
    else read_output json_loads strip (stdout process).
Proof.
  unfold run_whisper', run_whisper.
  destruct (subprocess_run (command paths name language) (files w)) as [proc fs].
  simpl. intros ->.
  now destruct (negb (returncode process =? 0)).
Qed.

(** With the binary in place, [transcribe] is [run_whisper] on the files
    with the audio, followed by the removal of the audio. *)
Lemma transcribe_unfold file language w :
  path_exists (WHISPER_BINARY paths) (files w) = true ->
  let name := temp_name (files w) in
  let w1 := {| files := <[name := file]> (files w); commands := commands w |} in
  transcribe' file language w =
    (fst (run_whisper' name language w1),
     let w2 := snd (run_whisper' name language w1) in
     if path_exists name (files w2)
     then {| files := delete name (files w2); commands := commands w2 |}
     else w2).
Proof.
  intros Hbin name w1. unfold transcribe', transcribe. rewrite Hbin. simpl negb. cbv iota.
  fold name. fold w1. fold run_whisper'.
  now destruct (run_whisper' name language w1).
Qed.

Lemma transcribe_result file language w process :
  whisper_gave paths temp_name subprocess_run file language w process ->
  fst (transcribe' file language w) =
    if negb (returncode process =? 0)
    then Failed (HTTPError 500 ("Transcription failed: " +:+ stderr process))
    else read_output json_loads strip (stdout process).
Proof.
  intros [Hbin Hproc].
  rewrite (transcribe_unfold file language w Hbin). cbv zeta. cbn [fst].
  now apply run_whisper_result.
Qed.

End TranscribeFacts.

(** X11. [transcribe] leaves no audio behind.  Without the binary it
    fails with status 500 before anything is written or run.  With it,
    one command is run, and afterwards the temporary file does not exist,
    whether the request succeeded, the process failed or an exception went
    through. *)
Theorem audio_file_is_always_removed (paths : WhisperPaths)
    (temp_name : Files -> string)
    (subprocess_run : list string -> Files -> result CompletedProcess * Files)
    (json_loads : string -> option value) (strip : string -> string)
    (file : list byte) (language : option string) (w : World) :
  let after := transcribe paths temp_name subprocess_run json_loads strip file language w in
  (path_exists (WHISPER_BINARY paths) (files w) = false ->
   after = (Failed (HTTPError 500 "Whisper binary not found"), w))
  /\
  (path_exists (WHISPER_BINARY paths) (files w) = true ->
   path_exists (temp_name (files w)) (files (snd after)) = false
   /\ commands (snd after) = commands w ++ [command paths (temp_name (files w)) language]).
Proof.
  intros after. split.
  - intros Hbin. unfold after, transcribe. now rewrite Hbin.
  - intros Hbin. unfold after.
    rewrite (transcribe_unfold paths temp_name subprocess_run json_loads strip
               file language w Hbin).
    cbv zeta. cbn [snd]. rewrite run_whisper_world. cbn [files commands].
    set (fs2 := snd (subprocess_run _ _)).
    destruct (path_exists (temp_name (files w)) fs2) eqn:Hthere; cbn [files commands].
    + split; [| reflexivity]. unfold path_exists. now rewrite lookup_delete_eq.
    + now split.
Qed.

Lemma audio_file_is_always_removed_witness :
  path_exists "/tmp/tmpk3v9.wav"
    (files (snd (transcribe server_paths fixed_name (prints 1 "" "failed to read audio")
                   toy_loads ascii_strip (bytes "RIFF") None server_world))) = false.
Proof.
  refine (proj1 (proj2 (audio_file_is_always_removed server_paths fixed_name
                          (prints 1 "" "failed to read audio") toy_loads ascii_strip
                          (bytes "RIFF") None server_world) _)).
  reflexivity.
Defined.

(** X12. When the name of the temporary file is new and the process
    leaves the files alone, [transcribe] leaves them exactly as they
    were. *)
Theorem transcribe_restores_the_files (paths : WhisperPaths)
    (temp_name : Files -> string)
    (subprocess_run : list string -> Files -> result CompletedProcess * Files)
    (json_loads : string -> option value) (strip : string -> string)
    (file : list byte) (language : option string) (w : World) :
  files w !! temp_name (files w) = None ->
  (forall cmd fs, snd (subprocess_run cmd fs) = fs) ->
  files (snd (transcribe paths temp_name subprocess_run json_loads strip file language w))
  = files w.
Proof.
  intros Hfresh Hquiet.
  destruct (path_exists (WHISPER_BINARY paths) (files w)) eqn:Hbin.
  - rewrite (transcribe_unfold paths temp_name subprocess_run json_loads strip
               file language w Hbin).
    cbv zeta. cbn [snd]. rewrite run_whisper_world. cbn [files commands].
    rewrite Hquiet. unfold path_exists. rewrite lookup_insert_eq. cbn [files].
    now apply delete_insert_id.
  - unfold transcribe. now rewrite Hbin.
Qed.

Lemma transcribe_restores_the_files_witness :
  files (snd (transcribe server_paths fixed_name (prints 0 "42" "") toy_loads ascii_strip
                (bytes "RIFF") (Some "en") server_world)) = server_files.
Proof.
  apply (transcribe_restores_the_files server_paths fixed_name (prints 0 "42" "")
           toy_loads ascii_strip (bytes "RIFF") (Some "en") server_world).
  - reflexivity.
  - reflexivity.
Defined.

(** X13. The command of [transcribe] is the binary with the model, the
    temporary file, [-oj] and [--no-prints]; [-l] with the language is
    appended exactly when a language is given and is not the empty
    string. *)
Theorem language_flag_needs_a_language (paths : WhisperPaths) (name : string)
    (language : option string) :
  let base := [WHISPER_BINARY paths; "-m"; WHISPER_MODEL paths; "-f"; name;
               "-oj"; "--no-prints"] in
  (In "-l" (skipn 7 (command paths name language)) <->
   exists l, language = Some l /\ l <> "")
  /\ (forall l, language = Some l -> l <> "" ->
      command paths name language = base ++ ["-l"; l])
  /\ (language = None \/ language = Some "" ->
      command paths name language = base).
Proof.
  intros base. unfold command. fold base.
  destruct language as [l|].
  - destruct (String.eqb l "") eqn:Hl.
    + apply String.eqb_eq in Hl. subst l. simpl. repeat split.
      * intros [].
      * intros (l & [= <-] & Hne). now contradiction Hne.
      * intros l [= <-] Hne. now contradiction Hne.
    + apply String.eqb_neq in Hl. simpl. repeat split.
      * intros _. eauto.
      * intros _. now left.
      * now intros l' [= <-] _.
      * intros [Hnone|[= Hempty]]; [discriminate | now contradiction Hl].
  - simpl. repeat split.
    + intros [].
    + intros (l & Hl & _). discriminate.
    + intros l Hl. discriminate.
Qed.

Lemma language_flag_needs_a_language_witness :
  command server_paths "/tmp/tmpk3v9.wav" (Some "en") =
    ["/srv/api/whisper.cpp/build/bin/main"; "-m"; "/srv/models/whisper/ggml-small.bin";
     "-f"; "/tmp/tmpk3v9.wav"; "-oj"; "--no-prints"; "-l"; "en"]
  /\
  command server_paths "/tmp/tmpk3v9.wav" (Some "") =
    ["/srv/api/whisper.cpp/build/bin/main"; "-m"; "/srv/models/whisper/ggml-small.bin";
     "-f"; "/tmp/tmpk3v9.wav"; "-oj"; "--no-prints"].
Proof.
  destruct (language_flag_needs_a_language server_paths "/tmp/tmpk3v9.wav" (Some "en"))
    as (_ & Hsome & _).
  destruct (language_flag_needs_a_language server_paths "/tmp/tmpk3v9.wav" (Some ""))
    as (_ & _ & Hnone).
  split.
  - apply (Hsome "en"); [reflexivity | discriminate].
  - apply Hnone. now right.
Defined.

(** X14. A form that the gateway forwards without [language] makes the
    server run the command without [-l]: the field is absent from the
    outbound [data], so the server is given no language. *)
Theorem no_language_field_no_language_flag (paths : WhisperPaths) (name : string)
    (form_data : gmap string FormValue) :
  form_data !! "language" = None ->
  command paths name (language_field (snd (split_form form_data))) =
    [WHISPER_BINARY paths; "-m"; WHISPER_MODEL paths; "-f"; name; "-oj"; "--no-prints"].
Proof.
  intros Hnone. unfold language_field.
  destruct (split_form_lookup form_data "language") as [-> _].
  now rewrite Hnone.
Qed.

Lemma no_language_field_no_language_flag_witness :
  command server_paths "/tmp/tmpk3v9.wav" (language_field (snd (split_form audio_form))) =
    ["/srv/api/whisper.cpp/build/bin/main"; "-m"; "/srv/models/whisper/ggml-small.bin";
     "-f"; "/tmp/tmpk3v9.wav"; "-oj"; "--no-prints"].
Proof.
  apply (no_language_field_no_language_flag server_paths "/tmp/tmpk3v9.wav" audio_form).
  reflexivity.
Defined.

(** *** What [transcribe] makes of the output *)

(** X15. When the process exits with a code other than 0, [transcribe]
    fails with status 500 and the detail [Transcription failed: ]
    followed by the error output; what the process printed is not read. *)
Theorem failed_process_is_a_500 (paths : WhisperPaths) (temp_name : Files -> string)
    (subprocess_run : list string -> Files -> result CompletedProcess * Files)
    (json_loads : string -> option value) (strip : string -> string)
    (file : list byte) (language : option string) (w : World)
    (process : CompletedProcess) :
  whisper_gave paths temp_name subprocess_run file language w process ->
  returncode process <> 0 ->
  fst (transcribe paths temp_name subprocess_run json_loads strip file language w) =
    Failed (HTTPError 500 ("Transcription failed: " +:+ stderr process)).
Proof.
  intros Hgave Hcode.
  rewrite (transcribe_result paths temp_name subprocess_run json_loads strip
             file language w process Hgave).
  apply Z.eqb_neq in Hcode. now rewrite Hcode.
Qed.

Lemma failed_process_is_a_500_witness :
  fst (transcribe server_paths fixed_name (prints 1 segments_output "failed to read audio")
         toy_loads ascii_strip (bytes "RIFF") None server_world) =
    Failed (HTTPError 500 "Transcription failed: failed to read audio").
Proof.
  apply (failed_process_is_a_500 server_paths fixed_name
           (prints 1 segments_output "failed to read audio") toy_loads ascii_strip
           (bytes "RIFF") None server_world
           {| returncode := 1; stdout := segments_output;
              stderr := "failed to read audio" |}).
  - split; reflexivity.
  - discriminate.
Defined.

(** X16. When the process exits with 0 and its output is not JSON, the
    text of the reply is the output, stripped. *)
Theorem plain_output_is_the_text (paths : WhisperPaths) (temp_name : Files -> string)
    (subprocess_run : list string -> Files -> result CompletedProcess * Files)
    (json_loads : string -> option value) (strip : string -> string)
    (file : list byte) (language : option string) (w : World)
    (process : CompletedProcess) :
  whisper_gave paths temp_name subprocess_run file language w process ->
  returncode process = 0 ->
  json_loads (stdout process) = None ->
  fst (transcribe paths temp_name subprocess_run json_loads strip file language w) =
    Done (VDict [("text", VStr (strip (stdout process)))]).
Proof.
  intros Hgave Hcode Hjson.
  rewrite (transcribe_result paths temp_name subprocess_run json_loads strip
             file language w process Hgave).
  rewrite Hcode. simpl. unfold read_output. now rewrite Hjson.
Qed.

Lemma plain_output_is_the_text_witness :
  fst (transcribe server_paths fixed_name (prints 0 "  hello world  " "")
         toy_loads ascii_strip (bytes "RIFF") None server_world) =
    Done (VDict [("text", VStr "hello world")]).
Proof.
  apply (plain_output_is_the_text server_paths fixed_name (prints 0 "  hello world  " "")
           toy_loads ascii_strip (bytes "RIFF") None server_world
           {| returncode := 0; stdout := "  hello world  "; stderr := "" |}).
  - split; reflexivity.
  - reflexivity.
  - reflexivity.
Defined.

Lemma texts_of_segments (segments : list value) (texts : list string) :
  Forall2 segment_says segments texts ->
  texts_of segments = Done (map VStr texts).
Proof.
  induction 1 as [|segment text segments texts (items & -> & Htext) _ IH]; simpl.
  - reflexivity.
  - rewrite IH. now destruct Htext as [->|[-> ->]].
Qed.

Lemma join_spaces_concat (texts : list string) :
  join_spaces (map VStr texts) = Done (String.concat " " texts).
Proof.
  induction texts as [|text rest IH]; [reflexivity |].
  destruct rest as [|next rest]; [reflexivity |].
  change (join_spaces (map VStr (text :: next :: rest)))
    with (match join_spaces (map VStr (next :: rest)) with
          | Done t => Done (text +:+ " " +:+ t)
          | Failed f => Failed f
          end).
  rewrite IH. reflexivity.
Qed.

(** X17. When the process exits with 0 and prints an object whose
    ["transcription"] is a list of segments, the text of the reply is the
    texts of the segments joined by single spaces, a segment without
    ["text"] counting as the empty string; a ["result"] key is then not
    looked at. *)
Theorem segments_are_joined_by_spaces (paths : WhisperPaths) (temp_name : Files -> string)
    (subprocess_run : list string -> Files -> result CompletedProcess * Files)
    (json_loads : string -> option value) (strip : string -> string)
    (file : list byte) (language : option string) (w : World)
    (process : CompletedProcess) (items : list (string * value))
    (segments : list value) (texts : list string) :
  whisper_gave paths temp_name subprocess_run file language w process ->
  returncode process = 0 ->
  json_loads (stdout process) = Some (VDict items) ->
  dict_lookup "transcription" items = Some (VList segments) ->
  Forall2 segment_says segments texts ->
  fst (transcribe paths temp_name subprocess_run json_loads strip file language w) =
    Done (VDict [("text", VStr (String.concat " " texts))]).
Proof.
  intros Hgave Hcode Hjson Hkey Hsegments.
  rewrite (transcribe_result paths temp_name subprocess_run json_loads strip
             file language w process Hgave).
  rewrite Hcode. simpl. unfold read_output. rewrite Hjson.
  unfold py_in, py_subscript. rewrite Hkey. cbn [py_iter].
  rewrite (texts_of_segments segments texts Hsegments).
  now rewrite join_spaces_concat.
Qed.

Lemma segments_are_joined_by_spaces_witness :
  fst (transcribe server_paths fixed_name (prints 0 segments_output "")
         toy_loads ascii_strip (bytes "RIFF") None server_world) =
    Done (VDict [("text", VStr "hello  world")]).
Proof.
  apply (segments_are_joined_by_spaces server_paths fixed_name
           (prints 0 segments_output "") toy_loads ascii_strip (bytes "RIFF") None
           server_world
           {| returncode := 0; stdout := segments_output; stderr := "" |}
           [("transcription",
             VList [VDict [("text", VStr "hello")]; VDict [];
                    VDict [("text", VStr "world")]])]
           [VDict [("text", VStr "hello")]; VDict []; VDict [("text", VStr "world")]]
           ["hello"; ""; "world"]).
  - split; reflexivity.
  - reflexivity.
  - reflexivity.
  - reflexivity.
  - repeat constructor.
    + eexists. split; [reflexivity | now left].
    + eexists. split; [reflexivity | now right].
    + eexists. split; [reflexivity | now left].
Defined.

(** X18. When the process exits with 0 and prints JSON that is no
    object, list or string ([null], [true], a number), [transcribe] does
    not fall back to the plain output: the [in] test raises a [TypeError],
    which the handler lets through. *)
Theorem scalar_output_is_a_type_error (paths : WhisperPaths) (temp_name : Files -> string)
    (subprocess_run : list string -> Files -> result CompletedProcess * Files)
    (json_loads : string -> option value) (strip : string -> string)
    (file : list byte) (language : option string) (w : World)
    (process : CompletedProcess) (v : value) :
  whisper_gave paths temp_name subprocess_run file language w process ->
  returncode process = 0 ->
  json_loads (stdout process) = Some v ->
  is_container v = false ->
  fst (transcribe paths temp_name subprocess_run json_loads strip file language w) =
    Failed TypeError.
Proof.
  intros Hgave Hcode Hjson Hscalar.
  rewrite (transcribe_result paths temp_name subprocess_run json_loads strip
             file language w process Hgave).
  rewrite Hcode. simpl. unfold read_output. rewrite Hjson.
  now destruct v.
Qed.

Lemma scalar_output_is_a_type_error_witness :
  fst (transcribe server_paths fixed_name (prints 0 "42" "")
         toy_loads ascii_strip (bytes "RIFF") None server_world) =
    Failed TypeError.
Proof.
  apply (scalar_output_is_a_type_error server_paths fixed_name (prints 0 "42" "")
           toy_loads ascii_strip (bytes "RIFF") None server_world
           {| returncode := 0; stdout := "42"; stderr := "" |} (VInt 42)).
  - split; reflexivity.
  - reflexivity.
  - reflexivity.
  - reflexivity.
Defined.

(** X19. When the process exits with 0 and prints an object without
    ["transcription"]: with a ["result"] key, the text of the reply is
    whatever is under ["text"], of any type, or the empty string; with
    neither key, it is the output itself, stripped. *)
Theorem object_without_segments (paths : WhisperPaths) (temp_name : Files -> string)
    (subprocess_run : list string -> Files -> result CompletedProcess * Files)
    (json_loads : string -> option value) (strip : string -> string)
    (file : list byte) (language : option string) (w : World)
    (process : CompletedProcess) (items : list (string * value)) :
  whisper_gave paths temp_name subprocess_run file language w process ->
  returncode process = 0 ->
  json_loads (stdout process) = Some (VDict items) ->
  dict_lookup "transcription" items = None ->
  let reply :=
    fst (transcribe paths temp_name subprocess_run json_loads strip file language w) in
  (forall r, dict_lookup "result" items = Some r ->
   reply = Done (VDict [("text",
                         match dict_lookup "text" items with
                         | Some text => text
                         | None => VStr ""
                         end)]))
  /\
  (dict_lookup "result" items = None ->
   reply = Done (VDict [("text", VStr (strip (stdout process)))])).
Proof.
  intros Hgave Hcode Hjson Hkey reply. unfold reply.
  rewrite (transcribe_result paths temp_name subprocess_run json_loads strip
             file language w process Hgave).
  rewrite Hcode. simpl. unfold read_output. rewrite Hjson.
  unfold py_in. rewrite Hkey. split.
  - intros r Hresult. now rewrite Hresult.
  - intros Hresult. now rewrite Hresult.
Qed.

Lemma object_without_segments_witness :
  fst (transcribe server_paths fixed_name (prints 0 "{}" "")
         toy_loads ascii_strip (bytes "RIFF") None server_world) =
    Done (VDict [("text", VStr "{}")]).
Proof.
  apply (object_without_segments server_paths fixed_name (prints 0 "{}" "")
           toy_loads ascii_strip (bytes "RIFF") None server_world
           {| returncode := 0; stdout := "{}"; stderr := "" |} []).
  - split; reflexivity.
  - reflexivity.
  - reflexivity.
  - reflexivity.
  - reflexivity.
Defined.

(** *** The health of the server, seen from the gateway *)

(** X20. [health] of the server answers 200 exactly when the binary and
    the model both exist, and 503 otherwise, naming the binary when both
    are missing; the record [health_check] of the gateway makes of the
    answer is ["up"] in the first case and ["error"] in the second. *)
Theorem server_health_as_the_gateway_reads_it (paths : WhisperPaths) (fs : Files)
    (hdrs : gmap string string) (body : list byte) :
  let ready :=
    path_exists (WHISPER_BINARY paths) fs && path_exists (WHISPER_MODEL paths) fs in
  let answer :=
    {| status_code := fst (health paths fs); headers := hdrs; content := body;
       json := Ok (snd (health paths fs)) |} in
  fst (health paths fs) = (if ready then 200 else 503)
  /\ probe_status answer = (if ready then "up" else "error")
  /\ (path_exists (WHISPER_BINARY paths) fs = false ->
      snd (health paths fs) =
        VDict [("status", VStr "error");
               ("message", VStr ("Whisper binary not found at " +:+ WHISPER_BINARY paths))]).
Proof.
  intros ready answer. unfold ready, answer, probe_status, health. simpl.
  destruct (path_exists (WHISPER_BINARY paths) fs),
           (path_exists (WHISPER_MODEL paths) fs); simpl; repeat split; discriminate.
Qed.
